(** * djangorest_alchemy.viewsets: a shallow embedding of [AlchemyModelViewSet]

    The viewset orchestrates three collaborators that live outside
    [viewsets.py]: the manager (obtained through [manager_factory] of
    [ManagerMixin]), the paginator ([paginate_by] and [get_page] of
    [MultipleObjectMixin]) and the serializers.  Python exceptions are
    modelled by an error result, and every call that leaves the viewset is
    recorded, with its outcome, in a trace. *)

From Stdlib Require Import String List ZArith Bool Lia DecimalString.
Import ListNotations.
Local Open Scope string_scope.
Local Open Scope list_scope.
Local Open Scope Z_scope.
Set Warnings "-register-all".

(** ** Python values, dicts and exceptions *)

(** The objects that end up in a response body. *)
Inductive value : Type :=
| VNone
| VInt (z : Z)
| VStr (s : string)
| VList (l : list value)
| VDict (d : list (string * value)).

(** A Python [dict] keeps its keys in insertion order: an association list
    whose keys are pairwise distinct. *)
Definition dict (V : Type) : Type := list (string * V).

Definition keys {V} (d : dict V) : list string := map fst d.

Definition values {V} (d : dict V) : list V := map snd d.

Fixpoint dict_get {V} (d : dict V) (k : string) : option V :=
  match d with
  | [] => None
  | (k', v) :: d' => if String.eqb k k' then Some v else dict_get d' k
  end.

(** [d[k] = v]: an existing key keeps its position, a new key goes last. *)
Fixpoint dict_set {V} (d : dict V) (k : string) (v : V) : dict V :=
  match d with
  | [] => [(k, v)]
  | (k', v') :: d' =>
      if String.eqb k k' then (k', v) :: d' else (k', v') :: dict_set d' k v
  end.

(** [dict(items)]. *)
Definition dict_of_items {V} (items : list (string * V)) : dict V :=
  fold_left (fun d kv => dict_set d (fst kv) (snd kv)) items [].

Definition has_key (body : value) (k : string) : bool :=
  match body with
  | VDict d => existsb (String.eqb k) (keys d)
  | _ => false
  end.

Definition field (body : value) (k : string) : option value :=
  match body with
  | VDict d => dict_get d k
  | _ => None
  end.

(** The exception classes the viewset can meet.  [InvalidPage] is the one
    imported from [django.core.paginator]; [PageNotAnInteger] and [EmptyPage]
    are its subclasses there. *)
Inductive exn_class : Type :=
| InvalidPage
| PageNotAnInteger
| EmptyPage
| NotFound
| OtherError (name : string).

Record exn : Type := Exception { exc_class : exn_class; exc_args : string }.

(** [isinstance(e, InvalidPage)], what [except InvalidPage] tests. *)
Definition isinstance_InvalidPage (e : exn) : bool :=
  match exc_class e with
  | InvalidPage | PageNotAnInteger | EmptyPage => true
  | _ => false
  end.

Definition is_not_found (e : exn) : bool :=
  match exc_class e with
  | NotFound => true
  | _ => false
  end.

Inductive Result (A : Type) : Type :=
| Ok (a : A)
| Raise (e : exn).
Arguments Ok {A} a.
Arguments Raise {A} e.

Fixpoint mapM {A B} (f : A -> Result B) (l : list A) : Result (list B) :=
  match l with
  | [] => Ok []
  | x :: l' =>
      match f x with
      | Raise e => Raise e
      | Ok y =>
          match mapM f l' with
          | Raise e => Raise e
          | Ok ys => Ok (y :: ys)
          end
      end
  end.

(** ** rest_framework: status codes and [Response] *)

Definition HTTP_200_OK : Z := 200.
Definition HTTP_400_BAD_REQUEST : Z := 400.
Definition HTTP_404_NOT_FOUND : Z := 404.

(** [Response(data, status=None)]. *)
Record Response : Type := mkResponse { data : value; status : option Z }.

(** A response built without a status is sent as 200. *)
Definition status_code (r : Response) : Z :=
  match status r with
  | Some s => s
  | None => HTTP_200_OK
  end.

(** ** The collaborators' interfaces *)

(** The types the viewset never looks into: backend records, the entity type
    descriptor returned by [model_class()], the request's query parameters
    and the values captured from the URL. *)
Class Backend : Type := {
  Entity : Type;
  ModelClass : Type;
  QueryDict : Type;
  Key : Type
}.

Section Interfaces.
Context {backend : Backend}.

Record Request : Type := mkRequest {
  query_params : QueryDict;
  base_url : string
}.

(** [{'request': request}]. *)
Definition ContextDict : Type := dict Request.

(** The field-by-field mapping of one entity to its envelope, which the
    serializers delegate to the entity layer. *)
Class EntitySerialization : Type := {
  to_representation : ModelClass -> ContextDict -> Entity -> Result value
}.

(** What the viewset uses of a manager. *)
Record Manager : Type := mkManager {
  mgr_list : dict Key -> QueryDict -> Result (list Entity);
  mgr_retrieve : list Key -> dict Key -> Result Entity;
  mgr_model_class : Result ModelClass
}.

(** The two serializer classes of [djangorest_alchemy.serializers], as
    they are instantiated by [serializer_factory]. *)
Inductive Serializer : Type :=
| AlchemyListSerializer (instance : list Entity) (model_class : ModelClass)
    (context : ContextDict) (many : bool)
| AlchemyModelSerializer (instance : Entity) (model_class : ModelClass)
    (context : ContextDict).

Definition is_list_serializer (s : Serializer) : bool :=
  match s with
  | AlchemyListSerializer _ _ _ _ => true
  | AlchemyModelSerializer _ _ _ => false
  end.

Definition ser_model_class (s : Serializer) : ModelClass :=
  match s with
  | AlchemyListSerializer _ mc _ _ => mc
  | AlchemyModelSerializer _ mc _ => mc
  end.

Definition ser_context (s : Serializer) : ContextDict :=
  match s with
  | AlchemyListSerializer _ _ ctx _ => ctx
  | AlchemyModelSerializer _ _ ctx => ctx
  end.

(** What the viewset inherits from its mixins: [manager_factory] from
    [ManagerMixin], [paginate_by] and [get_page] from
    [MultipleObjectMixin].  [get_page] reads the requested page from
    [self.request], hence the request argument. *)
Record ViewSet : Type := mkViewSet {
  manager_factory : ContextDict -> Result Manager;
  paginate_by : option Z;
  get_page : Request -> list Entity -> Result (list Entity)
}.

(** ** Calls that leave the viewset, and the trace monad *)

Inductive Call : Type :=
| manager_factory_call (context : ContextDict)
| mgr_list_call (other_pks : dict Key) (filters : QueryDict)
| mgr_retrieve_call (pks : list Key) (other_pks : dict Key)
| mgr_model_class_call
| get_page_call (queryset : list Entity)
| serializer_data_call (s : Serializer).

Definition is_serializer_data_call (c : Call) : bool :=
  match c with
  | serializer_data_call _ => true
  | _ => false
  end.

Definition is_get_page_call (c : Call) : bool :=
  match c with
  | get_page_call _ => true
  | _ => false
  end.

Definition is_mgr_list_call (c : Call) : bool :=
  match c with
  | mgr_list_call _ _ => true
  | _ => false
  end.


(** The position of a call in the text of [list] and [retrieve]. *)
Definition call_rank (c : Call) : nat :=
  match c with
  | manager_factory_call _ => 0
  | mgr_list_call _ _ => 1
  | mgr_retrieve_call _ _ => 1
  | get_page_call _ => 2
  | mgr_model_class_call => 3
  | serializer_data_call _ => 4
  end%nat.

Inductive Outcome : Type :=
| Returned
| Raised (e : exn).

Definition Event : Type := (Call * Outcome)%type.

(** No call follows one that raised. *)
Fixpoint raises_only_last (trace : list Event) : bool :=
  match trace with
  | [] => true
  | (_, Returned) :: trace' => raises_only_last trace'
  | (_, Raised _) :: trace' =>
      match trace' with
      | [] => true
      | _ :: _ => false
      end
  end.

(** The calls of a trace come in strictly increasing rank. *)
Fixpoint in_source_order (trace : list Event) : bool :=
  match trace with
  | [] => true
  | (c, _) :: trace' =>
      match trace' with
      | [] => true
      | (c', _) :: _ => (call_rank c <? call_rank c')%nat
      end && in_source_order trace'
  end.

(** A computation yields the calls it made, in order, and either a value
    or the exception that ended it. *)
Definition M (A : Type) : Type := (list Event * Result A)%type.

Definition ret {A} (a : A) : M A := ([], Ok a).

Definition bind {A B} (m : M A) (f : A -> M B) : M B :=
  match m with
  | (t, Raise e) => (t, Raise e)
  | (t, Ok a) => let (t', r) := f a in (t ++ t', r)
  end.

Definition outcome_of {A} (r : Result A) : Outcome :=
  match r with
  | Ok _ => Returned
  | Raise e => Raised e
  end.

Definition call {A} (c : Call) (r : Result A) : M A :=
  ([(c, outcome_of r)], r).

(** [try: body / except <handles>: handler]. *)
Definition try_except {A} (body : M A) (handles : exn -> bool)
    (handler : exn -> M A) : M A :=
  match body with
  | (t, Raise e) =>
      if handles e then let (t', r) := handler e in (t ++ t', r)
      else (t, Raise e)
  | (t, Ok a) => (t, Ok a)
  end.

End Interfaces.

Declare Scope viewset_scope.
Delimit Scope viewset_scope with viewset.
Notation "x <- m ;; k" := (bind m (fun x => k))
  (at level 100, m at next level, right associativity) : viewset_scope.
Local Open Scope viewset_scope.

(** ** The serializers' [data] and the paginator *)

Section Collaborators.
Context {backend : Backend} {serialization : EntitySerialization}.

(** Modelled from the spec: the [data] property of [AlchemyListSerializer]
    and [AlchemyModelSerializer] ([djangorest_alchemy.serializers] is not
    among the sources).  A list serializer produces the ordered sequence of
    the per-entity envelopes of the data it wraps, a single serializer the
    envelope of its one entity. *)
Definition serializer_data (s : Serializer) : Result value :=
  match s with
  | AlchemyListSerializer instance model_class context _ =>
      match mapM (to_representation model_class context) instance with
      | Ok envelopes => Ok (VList envelopes)
      | Raise e => Raise e
      end
  | AlchemyModelSerializer instance model_class context =>
      to_representation model_class context instance
  end.

(** [ceil(count / page_size)]. *)
Definition num_pages (count page_size : Z) : Z :=
  (count + page_size - 1) / page_size.

(** Modelled from the spec: the pagination resolver behind
    [MultipleObjectMixin.get_page] ([djangorest_alchemy.mixins] is not
    among the sources).  [paginate sequence page_size requested_page] is
    the requested page, and fails with an invalid-page error when the page
    number is outside [1 .. ceil(len(sequence) / page_size)]. *)
Definition paginate (sequence : list Entity) (page_size requested_page : Z)
    : Result (list Entity) :=
  if (1 <=? requested_page)
     && (requested_page <=? num_pages (Z.of_nat (length sequence)) page_size)
  then Ok (firstn (Z.to_nat page_size)
             (skipn (Z.to_nat ((requested_page - 1) * page_size)) sequence))
  else Raise (Exception InvalidPage "Invalid page").

(** A page is a bounded run of consecutive entities of the result set. *)
Definition is_page_of (page sequence : list Entity) : Prop :=
  exists start size, page = firstn size (skipn start sequence).

(** Modelled from the spec: the framework boundary that turns the outcome
    of a view into an HTTP status (the dispatch of [rest_framework], not
    among the sources).  A response carries its own status, the manager's
    not-found signal is mapped to 404, and any other failure is left to
    the transport layer's generic error handler. *)
Definition http_status (outcome : Result Response) : option Z :=
  match outcome with
  | Ok response => Some (status_code response)
  | Raise e => if is_not_found e then Some HTTP_404_NOT_FOUND else None
  end.

End Collaborators.

(** Truth value of [paginate_by]: [None] and [0] are falsy. *)
Definition truthy (page_size : option Z) : bool :=
  match page_size with
  | None => false
  | Some n => negb (n =? 0)
  end.

(** [paginate_by] as it is written into the response body. *)
Definition value_of_page_size (page_size : option Z) : value :=
  match page_size with
  | None => VNone
  | Some n => VInt n
  end.

(** ** The viewset *)

Module AlchemyModelViewSet.
Section Methods.
Context {backend : Backend} {serialization : EntitySerialization}.

(** The type of [queryset] at the two call sites of [serializer_factory]:
    a sequence of entities in [list], one entity in [retrieve]. *)
Definition queryset_of (multiple : bool) : Type :=
  if multiple then Datatypes.list Entity else Entity.

(** Factory method to instantiate the appropriate serializer class. *)
Definition serializer_factory (multiple : bool)
    : queryset_of multiple -> ModelClass -> ContextDict -> Serializer :=
  if multiple as b
     return queryset_of b -> ModelClass -> ContextDict -> Serializer
  then fun queryset model_class context =>
         AlchemyListSerializer queryset model_class context true
  else fun queryset model_class context =>
         AlchemyModelSerializer queryset model_class context.

(** The default: no primary key comes from another source, [{}]. *)
Definition get_other_pks (request : Request) : dict Key := [].

(** [list(kwargs.values())]. *)
Definition get_pks (request : Request) (kwargs : dict Key)
    : Datatypes.list Key :=
  values kwargs.

(** [retrieve] has no exception handler: the first call that raises ends
    it.  The arguments of [mgr.retrieve] are evaluated before the call, and
    so is [mgr.model_class()] before the serializer is built. *)
Definition retrieve (self : ViewSet) (request : Request) (kwargs : dict Key)
    : M Response :=
  let context := [("request", request)] in
  mgr <- call (manager_factory_call context) (manager_factory self context) ;;
  let pks := get_pks request kwargs in
  let other_pks := get_other_pks request in
  queryset <- call (mgr_retrieve_call pks other_pks)
                (mgr_retrieve mgr pks other_pks) ;;
  model_class <- call mgr_model_class_call (mgr_model_class mgr) ;;
  let serializer :=
    serializer_factory false queryset model_class [("request", request)] in
  envelope <- call (serializer_data_call serializer)
                (serializer_data serializer) ;;
  ret (mkResponse envelope None).

(** [list].  The [try] covers the call of [get_page] alone; its handler
    returns from the method, which the left injection stands for, and the
    right one carries the page on to serialization.  [count] is bound
    before [queryset] is rebound to the page. *)
Definition list (self : ViewSet) (request : Request) (kwargs : dict Key)
    : M Response :=
  let context := [("request", request)] in
  mgr <- call (manager_factory_call context) (manager_factory self context) ;;
  let other_pks := get_other_pks request in
  let filters := query_params request in
  queryset <- call (mgr_list_call other_pks filters)
                (mgr_list mgr other_pks filters) ;;
  let count := Z.of_nat (length queryset) in
  paged <-
    (if truthy (paginate_by self)
     then try_except
            (page <- call (get_page_call queryset)
                       (get_page self request queryset) ;;
             ret (inr page))
            isinstance_InvalidPage
            (fun _ => ret (inl (mkResponse (VDict [])
                                  (Some HTTP_400_BAD_REQUEST))))
     else ret (inr queryset)) ;;
  match paged with
  | inl response => ret response
  | inr queryset =>
      model_class <- call mgr_model_class_call (mgr_model_class mgr) ;;
      let serializer :=
        serializer_factory true queryset model_class
          [("request", request)] in
      results <- call (serializer_data_call serializer)
                   (serializer_data serializer) ;;
      ret (mkResponse
             (VDict [("count", VInt count);
                     ("page", value_of_page_size (paginate_by self));
                     ("results", results)])
             None)
  end.

End Methods.
End AlchemyModelViewSet.

(** ** A concrete backend

    Entities are their primary keys, query parameters are a list of pairs of
    strings, and an entity is serialized to its [href] alone. *)

Module Demo.

Definition backend : Backend :=
  {| Entity := string;
     ModelClass := string;
     QueryDict := Datatypes.list (string * string);
     Key := string |}.
#[local] Existing Instance backend.

Definition href (context : ContextDict) (pk : string) : string :=
  match dict_get context "request" with
  | Some request => base_url request ++ "/api/models/" ++ pk ++ "/"
  | None => "/api/models/" ++ pk ++ "/"
  end.

Definition serialization : EntitySerialization :=
  {| to_representation := fun _ context pk =>
       if String.eqb pk "broken"
       then Raise (Exception (OtherError "AttributeError") pk)
       else Ok (VDict [("href", VStr (href context pk))]) |}.
#[local] Existing Instance serialization.

(** The [page] query parameter, when it is a decimal numeral. *)
Definition requested_page (request : Request) : option Z :=
  match dict_get (query_params request) "page" with
  | Some s => option_map Z.of_uint (NilEmpty.uint_of_string s)
  | None => None
  end.

Definition manager (table : Datatypes.list string) : Manager :=
  {| mgr_list := fun _ _ => Ok table;
     mgr_retrieve := fun pks _ =>
       match pks with
       | [pk] =>
           if existsb (String.eqb pk) table then Ok pk
           else Raise (Exception NotFound pk)
       | _ => Raise (Exception NotFound "")
       end;
     mgr_model_class := Ok "Model" |}.

(** A viewset over [table] whose [get_page] is the specified resolver,
    applied to the [page] query parameter. *)
Definition viewset (table : Datatypes.list string) (page_size : option Z)
    : ViewSet :=
  {| manager_factory := fun _ => Ok (manager table);
     paginate_by := page_size;
     get_page := fun request queryset =>
       match page_size, requested_page request with
       | Some size, Some number => paginate queryset size number
       | _, _ => Raise (Exception PageNotAnInteger "page")
       end |}.

Definition request (page : string) : Request :=
  {| query_params := [("page", page)]; base_url := "http://server" |}.

Definition pk_of (n : nat) : string :=
  NilEmpty.string_of_uint (Nat.to_uint n).

(** Twenty-three entities, ["1"] to ["23"]. *)
Definition table23 : Datatypes.list string := map pk_of (seq 1 23).

(** Three entities, with a page size configured as 0. *)
Definition page_size_zero : ViewSet := viewset ["1"; "2"; "3"] (Some 0).

(** An empty table, without pagination. *)
Definition empty_unpaginated : ViewSet := viewset [] None.

(** A table whose second entity cannot be serialized. *)
Definition with_broken_entity : ViewSet := viewset ["1"; "broken"] None.

(** A manager whose queries raise [e]. *)
Definition manager_raising (e : exn) : Manager :=
  {| mgr_list := fun _ _ => Raise e;
     mgr_retrieve := fun _ _ => Raise e;
     mgr_model_class := Ok "Model" |}.

(** A paginated viewset over that manager. *)
Definition viewset_raising (e : exn) : ViewSet :=
  {| manager_factory := fun _ => Ok (manager_raising e);
     paginate_by := Some 10;
     get_page := fun _ queryset => Ok queryset |}.

End Demo.

(** * Properties *)

(** ** Dicts *)

Lemma dict_set_fresh {V} (d : dict V) k v :
  ~ In k (keys d) -> dict_set d k v = d ++ [(k, v)].
Proof.
  induction d as [| [k' v'] d IH]; intros Hfresh; cbn in *.
  - reflexivity.
  - destruct (String.eqb_spec k k') as [-> | _].
    + exfalso. apply Hfresh. now left.
    + rewrite IH; [reflexivity |]. intros Hin. apply Hfresh. now right.
Qed.

Lemma fold_dict_set_distinct {V} (items : list (string * V)) (d : dict V) :
  NoDup (keys d ++ map fst items) ->
  fold_left (fun d kv => dict_set d (fst kv) (snd kv)) items d = d ++ items.
Proof.
  revert d. induction items as [| [k v] items IH]; intros d Hdistinct; cbn.
  - now rewrite app_nil_r.
  - cbn in Hdistinct. rewrite dict_set_fresh.
    + rewrite IH.
      * now rewrite <- app_assoc.
      * unfold keys in *. rewrite map_app, <- app_assoc. exact Hdistinct.
    + apply NoDup_remove_2 in Hdistinct. intros Hin. apply Hdistinct.
      apply in_or_app. now left.
Qed.

(** Items with pairwise distinct keys make the dict that lists them in
    order. *)
Lemma dict_of_items_distinct {V} (items : list (string * V)) :
  NoDup (map fst items) -> dict_of_items items = items.
Proof.
  intros Hdistinct. unfold dict_of_items.
  now rewrite fold_dict_set_distinct.
Qed.

Lemma mapM_length {A B} (f : A -> Result B) (l : list A) (l' : list B) :
  mapM f l = Ok l' -> length l' = length l.
Proof.
  revert l'. induction l as [| x l IH]; intros l' Hmap; cbn in Hmap.
  - now injection Hmap as <-.
  - destruct (f x); [| discriminate].
    destruct (mapM f l); [| discriminate].
    injection Hmap as <-. cbn. f_equal. now apply IH.
Qed.

Section ViewSetProperties.
Context {backend : Backend} {serialization : EntitySerialization}.

Import AlchemyModelViewSet.

Implicit Types (self : ViewSet) (request : Request) (kwargs : dict Key).

(** Expose the next collaborator result the view branches on. *)
Ltac run_view :=
  unfold AlchemyModelViewSet.list, AlchemyModelViewSet.retrieve,
    bind, call, try_except, ret, outcome_of in *;
  cbn [app fst snd] in *.

Ltac next_call :=
  match goal with
  | H : context [match ?r with Ok _ => _ | Raise _ => _ end] |- _ =>
      destruct r eqn:?; cbn [app fst snd] in H
  | H : context [if ?b then _ else _] |- _ =>
      destruct b eqn:?; cbn [app fst snd] in H
  end.

(** A successful [list] went through every step, and its body is the
    three-key envelope. *)
Lemma list_success_inv self request kwargs trace response :
  AlchemyModelViewSet.list self request kwargs = (trace, Ok response) ->
  status_code response = HTTP_200_OK ->
  exists mgr queryset page model_class results,
    manager_factory self [("request", request)] = Ok mgr
    /\ mgr_list mgr (get_other_pks request) (query_params request)
       = Ok queryset
    /\ (if truthy (paginate_by self)
        then get_page self request queryset = Ok page
        else page = queryset)
    /\ mgr_model_class mgr = Ok model_class
    /\ serializer_data
         (AlchemyListSerializer page model_class [("request", request)] true)
       = Ok results
    /\ response =
         mkResponse
           (VDict [("count", VInt (Z.of_nat (length queryset)));
                   ("page", value_of_page_size (paginate_by self));
                   ("results", results)])
           None.
Proof.
  intros Hrun Hstatus. run_view.
  repeat next_call; try discriminate;
    inversion Hrun; subst; clear Hrun;
    try (cbv in Hstatus; discriminate);
    eexists _, _, _, _, _; repeat split; try eassumption; reflexivity.
Qed.

(** C1. When the manager's query yields [queryset], the [count] of the
    envelope returned by [list] is the length of [queryset], the whole
    result set, whatever the page size and the requested page are. *)
Theorem list_count_is_total self request kwargs mgr queryset trace response :
  manager_factory self [("request", request)] = Ok mgr ->
  mgr_list mgr (get_other_pks request) (query_params request)
    = Ok queryset ->
  AlchemyModelViewSet.list self request kwargs = (trace, Ok response) ->
  status_code response = HTTP_200_OK ->
  field (data response) "count" = Some (VInt (Z.of_nat (length queryset))).
Proof.
  intros Hfactory Hquery Hrun Hstatus.
  destruct (list_success_inv _ _ _ _ _ Hrun Hstatus)
    as (mgr' & queryset' & page & model_class & results
        & Hfactory' & Hquery' & _ & _ & _ & ->).
  rewrite Hfactory in Hfactory'. injection Hfactory' as <-.
  rewrite Hquery in Hquery'. injection Hquery' as <-.
  reflexivity.
Qed.

(** C2. With pagination enabled, when [get_page] raises an [InvalidPage],
    [list] returns the response [{}] with status 400 right after the
    [get_page] call: no serializer is asked for its data. *)
Theorem list_invalid_page_is_400 self request kwargs mgr queryset e :
  manager_factory self [("request", request)] = Ok mgr ->
  mgr_list mgr (get_other_pks request) (query_params request)
    = Ok queryset ->
  truthy (paginate_by self) = true ->
  get_page self request queryset = Raise e ->
  isinstance_InvalidPage e = true ->
  exists trace,
    AlchemyModelViewSet.list self request kwargs
      = (trace, Ok (mkResponse (VDict []) (Some HTTP_400_BAD_REQUEST)))
    /\ trace
       = [(manager_factory_call [("request", request)], Returned);
          (mgr_list_call (get_other_pks request) (query_params request),
           Returned);
          (get_page_call queryset, Raised e)]
    /\ Forall (fun ev => is_serializer_data_call (fst ev) = false) trace.
Proof.
  intros Hfactory Hquery Hpaginate Hpage Hinvalid.
  eexists. split; [| split; [reflexivity |]].
  - run_view. rewrite Hfactory. cbn [app]. rewrite Hquery. cbn [app].
    rewrite Hpaginate, Hpage. cbn [app]. rewrite Hinvalid. reflexivity.
  - repeat constructor.
Qed.

(** C3. The one failure [list] recovers from is an [InvalidPage] raised by
    [get_page].  Any other exception raised by a call made during [list]
    or [retrieve] is the outcome of the operation, the very same
    exception; and an operation never ends with an exception that no call
    raised. *)
Theorem only_invalid_page_is_recovered self request kwargs :
  (forall trace outcome,
      AlchemyModelViewSet.list self request kwargs = (trace, outcome) ->
      (forall c e, In (c, Raised e) trace ->
         outcome = Raise e
         \/ (is_get_page_call c = true
             /\ isinstance_InvalidPage e = true
             /\ outcome
                = Ok (mkResponse (VDict []) (Some HTTP_400_BAD_REQUEST))))
      /\ (forall e, outcome = Raise e -> exists c, In (c, Raised e) trace))
  /\ (forall trace outcome,
      AlchemyModelViewSet.retrieve self request kwargs = (trace, outcome) ->
      (forall c e, In (c, Raised e) trace -> outcome = Raise e)
      /\ (forall e, outcome = Raise e -> exists c, In (c, Raised e) trace)).
Proof.
  split; intros trace outcome Hrun; run_view;
    repeat next_call; inversion Hrun; subst; clear Hrun;
    (split;
     [ intros c e' Hin; cbn [In] in Hin;
       repeat (destruct Hin as [Hin | Hin]; [inversion Hin; subst |]);
       try contradiction; auto
     | intros e' Hout; try discriminate; injection Hout as <-;
       eexists; cbn [In]; eauto 6 ]).
Qed.

(** C4. When the manager's [retrieve] raises its not-found signal,
    [retrieve] makes no further call (no second query, no serialization)
    and ends with that same exception, which the framework boundary sends
    as HTTP 404. *)
Theorem retrieve_not_found_is_404 self request kwargs mgr e :
  manager_factory self [("request", request)] = Ok mgr ->
  mgr_retrieve mgr (get_pks request kwargs) (get_other_pks request)
    = Raise e ->
  is_not_found e = true ->
  AlchemyModelViewSet.retrieve self request kwargs
    = ([(manager_factory_call [("request", request)], Returned);
        (mgr_retrieve_call (get_pks request kwargs) (get_other_pks request),
         Raised e)],
       Raise e)
  /\ http_status (snd (AlchemyModelViewSet.retrieve self request kwargs))
     = Some HTTP_404_NOT_FOUND.
Proof.
  intros Hfactory Hquery Hnot_found.
  assert (Hrun : AlchemyModelViewSet.retrieve self request kwargs
                 = ([(manager_factory_call [("request", request)], Returned);
                     (mgr_retrieve_call (get_pks request kwargs)
                        (get_other_pks request), Raised e)],
                    Raise e)).
  { run_view. rewrite Hfactory. cbn [app]. rewrite Hquery. reflexivity. }
  split; [exact Hrun |].
  rewrite Hrun. cbn [snd http_status]. rewrite Hnot_found. reflexivity.
Qed.

(** C5. [get_pks] returns the values of the keyword arguments in the order
    the arguments were given: built from the captured groups
    [k1=pk1, k2=pk2, ...] (distinct names), [kwargs] yields
    [[pk1; pk2; ...]].  No entity type takes part, and the empty mapping
    yields the empty list. *)
Theorem get_pks_declaration_order request (items : dict Key) :
  NoDup (map fst items) ->
  get_pks request (dict_of_items items) = map snd items
  /\ get_pks request (dict_of_items []) = [].
Proof.
  intros Hdistinct. unfold get_pks, values.
  now rewrite dict_of_items_distinct.
Qed.

(** C6, as the code has it.  When [paginate_by] is falsy, [list] never
    calls [get_page]: the serializer wraps the whole result set, [results]
    holds one envelope per entity of it, in order, and [page] is the
    configured falsy value itself, null when the page size is unset and 0
    when it is 0. *)
Theorem list_unpaginated self request kwargs mgr queryset model_class
    envelopes :
  truthy (paginate_by self) = false ->
  manager_factory self [("request", request)] = Ok mgr ->
  mgr_list mgr (get_other_pks request) (query_params request)
    = Ok queryset ->
  mgr_model_class mgr = Ok model_class ->
  mapM (to_representation model_class [("request", request)]) queryset
    = Ok envelopes ->
  exists trace,
    AlchemyModelViewSet.list self request kwargs
      = (trace,
         Ok (mkResponse
               (VDict [("count", VInt (Z.of_nat (length queryset)));
                       ("page", value_of_page_size (paginate_by self));
                       ("results", VList envelopes)])
               None))
    /\ Forall (fun ev => is_get_page_call (fst ev) = false) trace
    /\ In (serializer_data_call
             (AlchemyListSerializer queryset model_class
                [("request", request)] true), Returned) trace
    /\ length envelopes = length queryset
    /\ (paginate_by self = None
        /\ value_of_page_size (paginate_by self) = VNone
        \/ paginate_by self = Some 0
           /\ value_of_page_size (paginate_by self) = VInt 0).
Proof.
  intros Hfalsy Hfactory Hquery Hclass Henvelopes.
  eexists. split; [| split; [| split; [| split]]].
  - run_view. rewrite Hfactory. cbn [app]. rewrite Hquery. cbn [app].
    rewrite Hfalsy. cbn [app]. rewrite Hclass. cbn [app].
    unfold serializer_data, serializer_factory. rewrite Henvelopes.
    reflexivity.
  - repeat constructor.
  - cbn [In]. auto.
  - eapply mapM_length; eassumption.
  - destruct (paginate_by self) as [n |]; cbn in *; [right | left; auto].
    destruct (n =? 0) eqn:Hzero; [| discriminate].
    apply Z.eqb_eq in Hzero. subst n. auto.
Qed.

(** C7. The body of every successful [list] response has the keys
    [count], [page] and [results]; and, pages being runs of the result
    set, a [count] of 0 comes with [results] equal to [[]]. *)
Theorem list_envelope_keys self request kwargs trace response :
  (forall queryset page,
      get_page self request queryset = Ok page -> is_page_of page queryset) ->
  AlchemyModelViewSet.list self request kwargs = (trace, Ok response) ->
  status_code response = HTTP_200_OK ->
  has_key (data response) "count" = true
  /\ has_key (data response) "page" = true
  /\ has_key (data response) "results" = true
  /\ (field (data response) "count" = Some (VInt 0) ->
      field (data response) "results" = Some (VList [])).
Proof.
  intros Hpages Hrun Hstatus.
  destruct (list_success_inv _ _ _ _ _ Hrun Hstatus)
    as (mgr & queryset & page & model_class & results
        & _ & _ & Hpage & _ & Hdata & ->).
  repeat split. cbn. intros Hcount.
  assert (Hempty : queryset = []).
  { destruct queryset; [reflexivity | discriminate]. }
  subst queryset.
  assert (Hnil : page = []).
  { destruct (truthy (paginate_by self)); [| exact Hpage].
    destruct (Hpages _ _ Hpage) as (start & size & ->).
    now rewrite skipn_nil, firstn_nil. }
  subst page. cbn in Hdata. now injection Hdata as <-.
Qed.

(** C8. Whenever [list] calls the manager's [list], the [filters] it
    passes are the request's [query_params] themselves; once a manager is
    obtained that call is made exactly once, and its outcome is what the
    manager answers to those very parameters.  [QueryDict] being an
    abstract type of the backend, the viewset has no way to look into
    it. *)
Theorem list_filters_verbatim self request kwargs trace outcome :
  AlchemyModelViewSet.list self request kwargs = (trace, outcome) ->
  (forall other_pks filters o,
      In (mgr_list_call other_pks filters, o) trace ->
      filters = query_params request)
  /\ (forall mgr,
      manager_factory self [("request", request)] = Ok mgr ->
      exists rest,
        trace
        = (manager_factory_call [("request", request)], Returned)
          :: (mgr_list_call (get_other_pks request) (query_params request),
              outcome_of (mgr_list mgr (get_other_pks request)
                            (query_params request)))
          :: rest
        /\ Forall (fun ev => is_mgr_list_call (fst ev) = false) rest).
Proof.
  intros Hrun. run_view.
  repeat next_call; inversion Hrun; subst; clear Hrun; split.
  all: try (intros other_pks filters o Hin; cbn [In] in Hin;
            repeat (destruct Hin as [Hin | Hin]; [inversion Hin; subst |]);
            try contradiction; reflexivity).
  all: intros mgr' Hfactory; try discriminate; injection Hfactory as <-.
  all: match goal with Hq : mgr_list _ _ _ = _ |- _ => rewrite Hq end.
  all: eexists; split; [reflexivity |].
  all: repeat constructor.
Qed.

(** C9. Which serializer [serializer_factory] builds depends on
    [multiple] alone: a list serializer in many-entity mode around the
    given sequence when it is true, a single-object serializer around the
    given entity when it is false, bound in both cases to the given
    [model_class] and [context]. *)
Theorem serializer_factory_dispatch :
  (forall (queryset : Datatypes.list Entity) model_class context,
      serializer_factory true queryset model_class context
      = AlchemyListSerializer queryset model_class context true)
  /\ (forall (queryset : Entity) model_class context,
      serializer_factory false queryset model_class context
      = AlchemyModelSerializer queryset model_class context)
  /\ (forall multiple queryset model_class context,
      is_list_serializer
        (serializer_factory multiple queryset model_class context)
      = multiple
      /\ ser_model_class
           (serializer_factory multiple queryset model_class context)
         = model_class
      /\ ser_context
           (serializer_factory multiple queryset model_class context)
         = context).
Proof.
  repeat split; destruct multiple; reflexivity.
Qed.

(** C10. The [page] field of a successful [list] response is the viewset's
    [paginate_by]: two successful requests to one viewset report the same
    [page], whatever pages they ask for. *)
Theorem list_page_is_paginate_by self request1 kwargs1 trace1 response1
    request2 kwargs2 trace2 response2 :
  AlchemyModelViewSet.list self request1 kwargs1 = (trace1, Ok response1) ->
  status_code response1 = HTTP_200_OK ->
  AlchemyModelViewSet.list self request2 kwargs2 = (trace2, Ok response2) ->
  status_code response2 = HTTP_200_OK ->
  field (data response1) "page"
    = Some (value_of_page_size (paginate_by self))
  /\ field (data response2) "page" = field (data response1) "page".
Proof.
  intros Hrun1 Hstatus1 Hrun2 Hstatus2.
  destruct (list_success_inv _ _ _ _ _ Hrun1 Hstatus1)
    as (? & ? & ? & ? & ? & _ & _ & _ & _ & _ & ->).
  destruct (list_success_inv _ _ _ _ _ Hrun2 Hstatus2)
    as (? & ? & ? & ? & ? & _ & _ & _ & _ & _ & ->).
  split; reflexivity.
Qed.

(** The requested page of the specified resolver is a run of the
    sequence. *)
Lemma paginate_is_page_of sequence page_size requested_page page :
  paginate sequence page_size requested_page = Ok page ->
  is_page_of page sequence.
Proof.
  unfold paginate. intros Hpage.
  destruct (_ && _); [| discriminate].
  injection Hpage as <-. eexists _, _. reflexivity.
Qed.

(** [list] reaches its request through its collaborators only: two requests
    that the manager provider, the manager, the paginator and the entity
    serialization answer alike get the same outcome. *)
Lemma list_sees_request_through_collaborators self request1 kwargs1
    request2 kwargs2 :
  manager_factory self [("request", request1)]
    = manager_factory self [("request", request2)] ->
  (forall mgr,
      manager_factory self [("request", request2)] = Ok mgr ->
      mgr_list mgr (get_other_pks request1) (query_params request1)
      = mgr_list mgr (get_other_pks request2) (query_params request2)) ->
  (forall queryset,
      get_page self request1 queryset = get_page self request2 queryset) ->
  (forall model_class entity,
      to_representation model_class [("request", request1)] entity
      = to_representation model_class [("request", request2)] entity) ->
  snd (AlchemyModelViewSet.list self request1 kwargs1)
  = snd (AlchemyModelViewSet.list self request2 kwargs2).
Proof.
  intros Hfactory Hquery Hpage Hentity. run_view.
  rewrite Hfactory.
  destruct (manager_factory self [("request", request2)]) as [mgr | e]
    eqn:Hmgr; [| reflexivity].
  rewrite (Hquery mgr eq_refl).
  destruct (mgr_list mgr (get_other_pks request2) (query_params request2))
    as [queryset | e]; [| reflexivity].
  assert (Hdata : forall page model_class,
             serializer_data
               (serializer_factory true page model_class
                  [("request", request1)])
             = serializer_data
                 (serializer_factory true page model_class
                    [("request", request2)])).
  { intros page model_class. cbn.
    replace (mapM (to_representation model_class [("request", request1)]) page)
      with (mapM (to_representation model_class [("request", request2)]) page);
      [reflexivity |].
    induction page as [| entity page IH]; cbn; [reflexivity |].
    now rewrite Hentity, IH. }
  destruct (truthy (paginate_by self)); cbn [app fst snd].
  - rewrite Hpage.
    destruct (get_page self request2 queryset) as [page | e]; cbn [app snd].
    + destruct (mgr_model_class mgr); cbn [app snd]; [| reflexivity].
      rewrite Hdata. now destruct (serializer_data _).
    + now destruct (isinstance_InvalidPage e).
  - destruct (mgr_model_class mgr); cbn [app snd]; [| reflexivity].
    rewrite Hdata. now destruct (serializer_data _).
Qed.

(** When every collaborator answers, [retrieve] asks the manager for the
    values of the keyword arguments, in order, and the response is the
    envelope of the entity it returns, sent as 200. *)
Lemma retrieve_returns_envelope self request kwargs mgr entity model_class
    envelope :
  manager_factory self [("request", request)] = Ok mgr ->
  mgr_retrieve mgr (values kwargs) [] = Ok entity ->
  mgr_model_class mgr = Ok model_class ->
  to_representation model_class [("request", request)] entity = Ok envelope ->
  AlchemyModelViewSet.retrieve self request kwargs
  = ([(manager_factory_call [("request", request)], Returned);
      (mgr_retrieve_call (values kwargs) [], Returned);
      (mgr_model_class_call, Returned);
      (serializer_data_call
         (AlchemyModelSerializer entity model_class [("request", request)]),
       Returned)],
     Ok (mkResponse envelope None))
  /\ status_code (mkResponse envelope None) = HTTP_200_OK.
Proof.
  intros Hfactory Hquery Hclass Henvelope. split; [| reflexivity].
  run_view. rewrite Hfactory. cbn [app].
  unfold get_pks, get_other_pks. rewrite Hquery. cbn [app].
  rewrite Hclass. cbn [app].
  unfold serializer_factory, serializer_data. rewrite Henvelope. reflexivity.
Qed.

(** With pagination enabled and a valid page, [results] holds the envelopes
    of the page that [get_page] returned, while [count] is still the length
    of the whole result set. *)
Lemma list_paginated self request kwargs mgr queryset page model_class
    envelopes :
  truthy (paginate_by self) = true ->
  manager_factory self [("request", request)] = Ok mgr ->
  mgr_list mgr (get_other_pks request) (query_params request) = Ok queryset ->
  get_page self request queryset = Ok page ->
  mgr_model_class mgr = Ok model_class ->
  mapM (to_representation model_class [("request", request)]) page
    = Ok envelopes ->
  snd (AlchemyModelViewSet.list self request kwargs)
  = Ok (mkResponse
          (VDict [("count", VInt (Z.of_nat (length queryset)));
                  ("page", value_of_page_size (paginate_by self));
                  ("results", VList envelopes)])
          None)
  /\ length envelopes = length page.
Proof.
  intros Htruthy Hfactory Hquery Hpage Hclass Henvelopes.
  split; [| eapply mapM_length; eassumption].
  run_view. rewrite Hfactory. cbn [app]. rewrite Hquery. cbn [app].
  rewrite Htruthy, Hpage. cbn [app]. rewrite Hclass. cbn [app].
  unfold serializer_data, serializer_factory. rewrite Henvelopes.
  reflexivity.
Qed.

(** Split an operation into its trace and outcome and walk through it. *)
Ltac run_cases op :=
  let Hrun := fresh "Hrun" in
  destruct op as [trace outcome] eqn:Hrun; run_view;
  repeat next_call; inversion Hrun; subst; clear Hrun.


(** [retrieve] does not paginate: two viewsets with the same manager
    provider behave alike whatever their [paginate_by] and [get_page] are,
    and [get_page] is never called. *)
Lemma retrieve_ignores_pagination self1 self2 request kwargs :
  manager_factory self1 [("request", request)]
    = manager_factory self2 [("request", request)] ->
  AlchemyModelViewSet.retrieve self1 request kwargs
  = AlchemyModelViewSet.retrieve self2 request kwargs
  /\ Forall (fun ev => is_get_page_call (fst ev) = false)
       (fst (AlchemyModelViewSet.retrieve self1 request kwargs)).
Proof.
  intros Hfactory. split.
  - unfold AlchemyModelViewSet.retrieve. now rewrite Hfactory.
  - run_cases (AlchemyModelViewSet.retrieve self1 request kwargs);
      cbn [fst]; repeat constructor.
Qed.

(** In both operations the calls come in the order of the text, each at
    most once (the manager provider, the manager's query, [get_page],
    [model_class()], the serializer's data), and no call follows one that
    raised. *)
Lemma calls_in_order_until_first_raise self request kwargs :
  (in_source_order (fst (AlchemyModelViewSet.list self request kwargs)) = true
   /\ raises_only_last (fst (AlchemyModelViewSet.list self request kwargs))
      = true)
  /\ (in_source_order (fst (AlchemyModelViewSet.retrieve self request kwargs))
      = true
      /\ raises_only_last
           (fst (AlchemyModelViewSet.retrieve self request kwargs))
         = true).
Proof.
  split.
  - run_cases (AlchemyModelViewSet.list self request kwargs);
      split; reflexivity.
  - run_cases (AlchemyModelViewSet.retrieve self request kwargs);
      split; reflexivity.
Qed.

(** An exception of the manager's [list] ends [list] whatever its class:
    an [InvalidPage] raised there is outside the [try] and is not turned
    into the 400 response. *)
Lemma list_manager_failure_is_not_recovered self request kwargs mgr e :
  manager_factory self [("request", request)] = Ok mgr ->
  mgr_list mgr (get_other_pks request) (query_params request) = Raise e ->
  AlchemyModelViewSet.list self request kwargs
  = ([(manager_factory_call [("request", request)], Returned);
      (mgr_list_call (get_other_pks request) (query_params request),
       Raised e)],
     Raise e).
Proof.
  intros Hfactory Hquery. run_view.
  rewrite Hfactory. cbn [app]. rewrite Hquery. reflexivity.
Qed.

(** An exception of the serializer ends [list] whatever its class, with or
    without pagination: the page was computed, but no response is built. *)
Lemma list_serializer_failure_propagates self request kwargs mgr queryset
    page model_class e :
  manager_factory self [("request", request)] = Ok mgr ->
  mgr_list mgr (get_other_pks request) (query_params request) = Ok queryset ->
  (if truthy (paginate_by self)
   then get_page self request queryset = Ok page
   else page = queryset) ->
  mgr_model_class mgr = Ok model_class ->
  serializer_data
    (AlchemyListSerializer page model_class [("request", request)] true)
  = Raise e ->
  snd (AlchemyModelViewSet.list self request kwargs) = Raise e.
Proof.
  intros Hfactory Hquery Hpage Hclass Hdata. run_view.
  rewrite Hfactory. cbn [app]. rewrite Hquery. cbn [app].
  destruct (truthy (paginate_by self)).
  - rewrite Hpage. cbn [app]. rewrite Hclass. cbn [app].
    unfold serializer_factory. rewrite Hdata. reflexivity.
  - subst page. cbn [app]. rewrite Hclass. cbn [app].
    unfold serializer_factory. rewrite Hdata. reflexivity.
Qed.

(** [list] returns two kinds of responses only: the envelope, without an
    explicit status, or [{}] with status 400; and the second only when
    pagination is enabled. *)
Lemma list_response_is_envelope_or_400 self request kwargs trace response :
  AlchemyModelViewSet.list self request kwargs = (trace, Ok response) ->
  (status response = None
   /\ exists count results,
        data response
        = VDict [("count", VInt count);
                 ("page", value_of_page_size (paginate_by self));
                 ("results", results)])
  \/ (response = mkResponse (VDict []) (Some HTTP_400_BAD_REQUEST)
      /\ truthy (paginate_by self) = true).
Proof.
  intros Hrun. run_view.
  repeat next_call; try discriminate; inversion Hrun; subst; clear Hrun;
    cbn [status data]; eauto 6.
Qed.

Lemma page_within_sequence (page sequence : Datatypes.list Entity) :
  is_page_of page sequence -> (length page <= length sequence)%nat.
Proof.
  intros (start & size & ->). rewrite length_firstn, length_skipn. lia.
Qed.

(** When [get_page] returns runs of the result set, a successful [list]
    never reports more results than [count]; without pagination it reports
    exactly [count] of them. *)
Lemma list_results_within_count self request kwargs trace response :
  (forall queryset page,
      get_page self request queryset = Ok page -> is_page_of page queryset) ->
  AlchemyModelViewSet.list self request kwargs = (trace, Ok response) ->
  status_code response = HTTP_200_OK ->
  exists count envelopes,
    field (data response) "count" = Some (VInt (Z.of_nat count))
    /\ field (data response) "results" = Some (VList envelopes)
    /\ (length envelopes <= count)%nat
    /\ (truthy (paginate_by self) = false -> length envelopes = count).
Proof.
  intros Hpages Hrun Hstatus.
  destruct (list_success_inv _ _ _ _ _ Hrun Hstatus)
    as (mgr & queryset & page & model_class & results
        & _ & _ & Hpage & _ & Hdata & ->).
  cbn in Hdata.
  destruct (mapM _ page) as [envelopes |] eqn:Henvelopes; [| discriminate].
  injection Hdata as <-. apply mapM_length in Henvelopes.
  exists (length queryset), envelopes. repeat split.
  - rewrite Henvelopes. destruct (truthy (paginate_by self)).
    + apply page_within_sequence. now apply Hpages.
    + subst page. lia.
  - intros Hfalsy. rewrite Hfalsy in Hpage. now subst page.
Qed.

(** Every serializer whose data is asked for is bound to the context
    [{'request': request}] of the current request and to the model class of
    the manager in use; it is a list serializer in [list] and a
    single-object serializer in [retrieve]. *)
Lemma serializers_bound_to_request self request kwargs :
  (forall s o,
      In (serializer_data_call s, o)
        (fst (AlchemyModelViewSet.list self request kwargs)) ->
      is_list_serializer s = true
      /\ ser_context s = [("request", request)]
      /\ exists mgr,
           manager_factory self [("request", request)] = Ok mgr
           /\ mgr_model_class mgr = Ok (ser_model_class s))
  /\ (forall s o,
      In (serializer_data_call s, o)
        (fst (AlchemyModelViewSet.retrieve self request kwargs)) ->
      is_list_serializer s = false
      /\ ser_context s = [("request", request)]
      /\ exists mgr,
           manager_factory self [("request", request)] = Ok mgr
           /\ mgr_model_class mgr = Ok (ser_model_class s)).
Proof.
  split; intros s o.
  - run_cases (AlchemyModelViewSet.list self request kwargs);
      cbn [fst In]; intros Hin;
      repeat (destruct Hin as [Hin | Hin]; [inversion Hin; subst |]);
      try contradiction; cbn; eauto.
  - run_cases (AlchemyModelViewSet.retrieve self request kwargs);
      cbn [fst In]; intros Hin;
      repeat (destruct Hin as [Hin | Hin]; [inversion Hin; subst |]);
      try contradiction; cbn; eauto.
Qed.

(** What the manager is asked: [retrieve] passes the values of the path's
    keyword arguments, as many as there are arguments and in their order,
    and both operations pass the empty [other_pks] of the default
    [get_other_pks], whatever the outcome of the query. *)
Lemma manager_query_arguments self request kwargs :
  (forall pks other_pks o,
      In (mgr_retrieve_call pks other_pks, o)
        (fst (AlchemyModelViewSet.retrieve self request kwargs)) ->
      pks = values kwargs
      /\ length pks = length kwargs
      /\ other_pks = [])
  /\ (forall other_pks filters o,
      In (mgr_list_call other_pks filters, o)
        (fst (AlchemyModelViewSet.list self request kwargs)) ->
      other_pks = []).
Proof.
  split.
  - intros pks other_pks o.
    run_cases (AlchemyModelViewSet.retrieve self request kwargs);
      cbn [fst In]; intros Hin;
      repeat (destruct Hin as [Hin | Hin]; [inversion Hin; subst |]);
      try contradiction;
      unfold get_pks, values; rewrite length_map; auto.
  - intros other_pks filters o.
    run_cases (AlchemyModelViewSet.list self request kwargs);
      cbn [fst In]; intros Hin;
      repeat (destruct Hin as [Hin | Hin]; [inversion Hin; subst |]);
      try contradiction; reflexivity.
Qed.

(** A response of [retrieve] is sent as 200 and its body is the envelope of
    the entity that the manager returned for the path's values: nothing is
    wrapped around it. *)
Lemma retrieve_success_is_entity_envelope self request kwargs trace response :
  AlchemyModelViewSet.retrieve self request kwargs = (trace, Ok response) ->
  status_code response = HTTP_200_OK
  /\ exists mgr entity model_class,
       manager_factory self [("request", request)] = Ok mgr
       /\ mgr_retrieve mgr (values kwargs) [] = Ok entity
       /\ mgr_model_class mgr = Ok model_class
       /\ to_representation model_class [("request", request)] entity
          = Ok (data response).
Proof.
  intros Hrun. run_view.
  repeat next_call; try discriminate; inversion Hrun; subst; clear Hrun.
  split; [reflexivity |]. eexists _, _, _. repeat split; eassumption.
Qed.

End ViewSetProperties.

(** * The properties on the concrete backend *)

Section Examples.
#[local] Existing Instance Demo.backend.
#[local] Existing Instance Demo.serialization.

Import AlchemyModelViewSet.

(** Page 3 of 23 entities by pages of 10: [count] is 23. *)
Lemma list_count_is_total_witness :
  exists trace response,
    AlchemyModelViewSet.list (Demo.viewset Demo.table23 (Some 10))
      (Demo.request "3") [] = (trace, Ok response)
    /\ field (data response) "count" = Some (VInt 23).
Proof.
  eexists _, _. split; [vm_compute; reflexivity |].
  eapply (list_count_is_total (Demo.viewset Demo.table23 (Some 10))
           (Demo.request "3") [] (Demo.manager Demo.table23) Demo.table23);
    vm_compute; reflexivity.
Defined.

(** Page 4 of 23 entities by pages of 10 is invalid: 400 and [{}]. *)
Lemma list_invalid_page_is_400_witness :
  exists trace,
    AlchemyModelViewSet.list (Demo.viewset Demo.table23 (Some 10))
      (Demo.request "4") []
    = (trace, Ok (mkResponse (VDict []) (Some HTTP_400_BAD_REQUEST)))
    /\ trace
       = [(manager_factory_call [("request", Demo.request "4")], Returned);
          (mgr_list_call (get_other_pks (Demo.request "4"))
             (query_params (Demo.request "4")), Returned);
          (get_page_call Demo.table23,
           Raised (Exception InvalidPage "Invalid page"))]
    /\ Forall (fun ev => is_serializer_data_call (fst ev) = false) trace.
Proof.
  apply (list_invalid_page_is_400 (Demo.viewset Demo.table23 (Some 10))
           (Demo.request "4") [] (Demo.manager Demo.table23) Demo.table23
           (Exception InvalidPage "Invalid page"));
    vm_compute; reflexivity.
Defined.

(** An entity that cannot be serialized: the serializer's exception is
    the outcome of [list]. *)
Lemma only_invalid_page_is_recovered_witness :
  snd (AlchemyModelViewSet.list Demo.with_broken_entity (Demo.request "1") [])
  = Raise (Exception (OtherError "AttributeError") "broken").
Proof.
  destruct (only_invalid_page_is_recovered Demo.with_broken_entity
              (Demo.request "1") []) as [Hlist _].
  destruct (Hlist _ _ eq_refl) as [Hraised _].
  destruct (Hraised
              (serializer_data_call
                 (@AlchemyListSerializer Demo.backend ["1"; "broken"] "Model"
                    [("request", Demo.request "1")] true))
              (Exception (OtherError "AttributeError") "broken"))
    as [Hout | (_ & Hinvalid & _)].
  - vm_compute. auto 6.
  - exact Hout.
  - vm_compute in Hinvalid. discriminate.
Defined.

(** No entity has the key ["99"]: [retrieve] ends with the manager's
    exception, a 404. *)
Lemma retrieve_not_found_is_404_witness :
  AlchemyModelViewSet.retrieve (Demo.viewset Demo.table23 None)
    (Demo.request "1") [("pk", "99")]
  = ([(manager_factory_call [("request", Demo.request "1")], Returned);
      (mgr_retrieve_call ["99"] [], Raised (Exception NotFound "99"))],
     Raise (Exception NotFound "99"))
  /\ http_status
       (snd (AlchemyModelViewSet.retrieve (Demo.viewset Demo.table23 None)
               (Demo.request "1") [("pk", "99")]))
     = Some HTTP_404_NOT_FOUND.
Proof.
  apply (retrieve_not_found_is_404 (Demo.viewset Demo.table23 None)
           (Demo.request "1") [("pk", "99")] (Demo.manager Demo.table23)
           (Exception NotFound "99"));
    vm_compute; reflexivity.
Defined.

(** [/models/pk1/childmodel/pk2]. *)
Lemma get_pks_declaration_order_witness :
  get_pks (Demo.request "1")
    (dict_of_items [("pk", "pk1"); ("child_pk", "pk2")])
  = ["pk1"; "pk2"]
  /\ get_pks (Demo.request "1") (dict_of_items []) = [].
Proof.
  apply (get_pks_declaration_order (Demo.request "1")
           [("pk", "pk1"); ("child_pk", "pk2")]).
  repeat constructor; cbn; intuition discriminate.
Defined.

(** C6, as stated, fails: a page size configured as 0 is falsy, pagination
    is skipped, and [page] is reported as 0, not as null. *)
Lemma list_page_size_zero_is_not_null :
  truthy (paginate_by Demo.page_size_zero) = false
  /\ exists trace response,
       AlchemyModelViewSet.list Demo.page_size_zero (Demo.request "1") []
       = (trace, Ok response)
       /\ status_code response = HTTP_200_OK
       /\ field (data response) "page" = Some (VInt 0)
       /\ field (data response) "page" <> Some VNone.
Proof.
  split; [reflexivity |].
  eexists _, _. split; [vm_compute; reflexivity |].
  repeat split. cbn. discriminate.
Qed.

(** Three entities and a page size of 0: three envelopes, [page] is 0. *)
Lemma list_unpaginated_witness :
  exists trace,
    AlchemyModelViewSet.list Demo.page_size_zero (Demo.request "1") []
    = (trace,
       Ok (mkResponse
             (VDict
                [("count", VInt 3);
                 ("page", VInt 0);
                 ("results",
                  VList
                    [VDict [("href", VStr "http://server/api/models/1/")];
                     VDict [("href", VStr "http://server/api/models/2/")];
                     VDict [("href", VStr "http://server/api/models/3/")]])])
             None))
    /\ Forall (fun ev => is_get_page_call (fst ev) = false) trace.
Proof.
  destruct (list_unpaginated (serialization := Demo.serialization)
              Demo.page_size_zero (Demo.request "1") []
              (Demo.manager ["1"; "2"; "3"]) ["1"; "2"; "3"] "Model"
              [VDict [("href", VStr "http://server/api/models/1/")];
               VDict [("href", VStr "http://server/api/models/2/")];
               VDict [("href", VStr "http://server/api/models/3/")]]
              eq_refl eq_refl eq_refl eq_refl eq_refl)
    as (trace & Hrun & Hno_page & _).
  exists trace. split; [exact Hrun | exact Hno_page].
Defined.

(** An empty table: [count] is 0, [results] is [[]], the keys are there. *)
Lemma list_envelope_keys_witness :
  exists trace response,
    AlchemyModelViewSet.list Demo.empty_unpaginated (Demo.request "1") []
    = (trace, Ok response)
    /\ field (data response) "count" = Some (VInt 0)
    /\ has_key (data response) "count" = true
    /\ has_key (data response) "page" = true
    /\ has_key (data response) "results" = true
    /\ field (data response) "results" = Some (VList []).
Proof.
  eexists _, _. split; [vm_compute; reflexivity |].
  split; [reflexivity |].
  edestruct (list_envelope_keys Demo.empty_unpaginated (Demo.request "1") [])
    as (Hcount & Hpage & Hresults & Hempty).
  - intros queryset page Hget. cbn in Hget. discriminate.
  - vm_compute. reflexivity.
  - reflexivity.
  - split; [exact Hcount |]. split; [exact Hpage |].
    split; [exact Hresults |]. apply Hempty. reflexivity.
Defined.

(** The filters the manager receives for [?page=3]. *)
Lemma list_filters_verbatim_witness :
  exists rest,
    fst (AlchemyModelViewSet.list (Demo.viewset Demo.table23 (Some 10))
           (Demo.request "3") [])
    = (manager_factory_call [("request", Demo.request "3")], Returned)
      :: (mgr_list_call [] [("page", "3")], Returned)
      :: rest
    /\ Forall (fun ev => is_mgr_list_call (fst ev) = false) rest.
Proof.
  destruct (list_filters_verbatim (Demo.viewset Demo.table23 (Some 10))
              (Demo.request "3") [] _ _ (surjective_pairing _))
    as [_ Hcall].
  exact (Hcall (Demo.manager Demo.table23) eq_refl).
Defined.

(** Pages 1 and 3 of one viewset: [page] is 10 both times. *)
Lemma list_page_is_paginate_by_witness :
  exists trace1 response1 trace3 response3,
    AlchemyModelViewSet.list (Demo.viewset Demo.table23 (Some 10))
      (Demo.request "1") [] = (trace1, Ok response1)
    /\ AlchemyModelViewSet.list (Demo.viewset Demo.table23 (Some 10))
         (Demo.request "3") [] = (trace3, Ok response3)
    /\ field (data response1) "page" = Some (VInt 10)
    /\ field (data response3) "page" = field (data response1) "page".
Proof.
  eexists _, _, _, _.
  split; [vm_compute; reflexivity |].
  split; [vm_compute; reflexivity |].
  eapply (list_page_is_paginate_by (Demo.viewset Demo.table23 (Some 10))
            (Demo.request "1") [] _ _ (Demo.request "3") []);
    vm_compute; reflexivity.
Defined.

(** The example of the specification: 23 entities by pages of 10.  Page 1
    has 10 results, page 3 has 3, the count is 23 on both, and page 4 is
    answered by 400 and [{}]. *)
Example twenty_three_entities_by_ten :
  let run page :=
    snd (AlchemyModelViewSet.list (Demo.viewset Demo.table23 (Some 10))
           (Demo.request page) []) in
  let results response :=
    match field (data response) "results" with
    | Some (VList envelopes) => Some (length envelopes)
    | _ => None
    end in
  (exists response,
      run "1" = Ok response
      /\ field (data response) "count" = Some (VInt 23)
      /\ results response = Some 10%nat)
  /\ (exists response,
      run "3" = Ok response
      /\ field (data response) "count" = Some (VInt 23)
      /\ results response = Some 3%nat)
  /\ run "4" = Ok (mkResponse (VDict []) (Some HTTP_400_BAD_REQUEST))
  /\ run "0" = Ok (mkResponse (VDict []) (Some HTTP_400_BAD_REQUEST)).
Proof.
  cbv zeta. repeat split; try (eexists; split; [vm_compute; reflexivity |]);
    vm_compute; auto.
Qed.

(** A query parameter that no collaborator reads changes nothing. *)
Lemma list_sees_request_through_collaborators_witness :
  snd (AlchemyModelViewSet.list (Demo.viewset Demo.table23 (Some 10))
         (Demo.request "3") [])
  = snd (AlchemyModelViewSet.list (Demo.viewset Demo.table23 (Some 10))
           (mkRequest [("page", "3"); ("colour", "red")] "http://server") []).
Proof.
  apply (list_sees_request_through_collaborators
           (serialization := Demo.serialization)
           (Demo.viewset Demo.table23 (Some 10)));
    try (intros mgr Hmgr; injection Hmgr as <-); intros; reflexivity.
Defined.

(** [/models/7/]: the envelope of entity ["7"]. *)
Lemma retrieve_returns_envelope_witness :
  snd (AlchemyModelViewSet.retrieve (Demo.viewset Demo.table23 None)
         (Demo.request "1") [("pk", "7")])
  = Ok (mkResponse (VDict [("href", VStr "http://server/api/models/7/")]) None).
Proof.
  destruct (retrieve_returns_envelope (serialization := Demo.serialization)
              (Demo.viewset Demo.table23 None) (Demo.request "1")
              [("pk", "7")] (Demo.manager Demo.table23) "7" "Model"
              (VDict [("href", VStr "http://server/api/models/7/")]))
    as [Hrun _]; [vm_compute; reflexivity .. |].
  rewrite Hrun. reflexivity.
Defined.

(** Page 3 of 23 entities by pages of 10: 3 envelopes, [count] is 23. *)
Lemma list_paginated_witness :
  snd (AlchemyModelViewSet.list (Demo.viewset Demo.table23 (Some 10))
         (Demo.request "3") [])
  = Ok (mkResponse
          (VDict
             [("count", VInt 23);
              ("page", VInt 10);
              ("results",
               VList
                 [VDict [("href", VStr "http://server/api/models/21/")];
                  VDict [("href", VStr "http://server/api/models/22/")];
                  VDict [("href", VStr "http://server/api/models/23/")]])])
          None).
Proof.
  destruct (list_paginated (serialization := Demo.serialization)
              (Demo.viewset Demo.table23 (Some 10)) (Demo.request "3") []
              (Demo.manager Demo.table23) Demo.table23 ["21"; "22"; "23"]
              "Model"
              [VDict [("href", VStr "http://server/api/models/21/")];
               VDict [("href", VStr "http://server/api/models/22/")];
               VDict [("href", VStr "http://server/api/models/23/")]])
    as [Hrun _]; [vm_compute; reflexivity .. |].
  exact Hrun.
Defined.

(** With and without a page size, [retrieve] of entity ["7"] is the same. *)
Lemma retrieve_ignores_pagination_witness :
  AlchemyModelViewSet.retrieve (Demo.viewset Demo.table23 None)
    (Demo.request "1") [("pk", "7")]
  = AlchemyModelViewSet.retrieve (Demo.viewset Demo.table23 (Some 10))
      (Demo.request "1") [("pk", "7")].
Proof.
  destruct (retrieve_ignores_pagination (serialization := Demo.serialization)
              (Demo.viewset Demo.table23 None)
              (Demo.viewset Demo.table23 (Some 10))
              (Demo.request "1") [("pk", "7")] eq_refl) as [Hsame _].
  exact Hsame.
Defined.

(** An [InvalidPage] raised by the manager, with pagination enabled: [list]
    raises it. *)
Lemma list_manager_failure_is_not_recovered_witness :
  snd (AlchemyModelViewSet.list
         (Demo.viewset_raising (Exception InvalidPage "from the manager"))
         (Demo.request "1") [])
  = Raise (Exception InvalidPage "from the manager").
Proof.
  rewrite (list_manager_failure_is_not_recovered
             (serialization := Demo.serialization)
             (Demo.viewset_raising (Exception InvalidPage "from the manager"))
             (Demo.request "1") []
             (Demo.manager_raising (Exception InvalidPage "from the manager"))
             (Exception InvalidPage "from the manager") eq_refl eq_refl).
  reflexivity.
Defined.

(** The entity that cannot be serialized ends [list]. *)
Lemma list_serializer_failure_propagates_witness :
  snd (AlchemyModelViewSet.list Demo.with_broken_entity (Demo.request "1") [])
  = Raise (Exception (OtherError "AttributeError") "broken").
Proof.
  apply (list_serializer_failure_propagates
           (serialization := Demo.serialization)
           Demo.with_broken_entity (Demo.request "1") []
           (Demo.manager ["1"; "broken"]) ["1"; "broken"] ["1"; "broken"]
           "Model");
    reflexivity.
Defined.

(** Page 4 of 23 entities by pages of 10: the 400 response, which needs
    pagination to be enabled. *)
Lemma list_response_is_envelope_or_400_witness :
  truthy (paginate_by (Demo.viewset Demo.table23 (Some 10))) = true.
Proof.
  assert (Hrun : exists trace,
             AlchemyModelViewSet.list (Demo.viewset Demo.table23 (Some 10))
               (Demo.request "4") []
             = (trace, Ok (mkResponse (VDict [])
                             (Some HTTP_400_BAD_REQUEST)))).
  { eexists. vm_compute. reflexivity. }
  destruct Hrun as [trace Hrun].
  destruct (list_response_is_envelope_or_400
              (serialization := Demo.serialization)
              (Demo.viewset Demo.table23 (Some 10)) (Demo.request "4") []
              trace _ Hrun)
    as [[Hstatus _] | [_ Htruthy]].
  - discriminate Hstatus.
  - exact Htruthy.
Defined.

(** Page 3 of 23 entities by pages of 10: 3 results, a count of 23. *)
Lemma list_results_within_count_witness :
  exists trace response count envelopes,
    AlchemyModelViewSet.list (Demo.viewset Demo.table23 (Some 10))
      (Demo.request "3") [] = (trace, Ok response)
    /\ field (data response) "count" = Some (VInt (Z.of_nat count))
    /\ field (data response) "results" = Some (VList envelopes)
    /\ (length envelopes <= count)%nat.
Proof.
  destruct (AlchemyModelViewSet.list (Demo.viewset Demo.table23 (Some 10))
              (Demo.request "3") []) as [trace [response | e]] eqn:Hrun;
    [| vm_compute in Hrun; discriminate].
  destruct (list_results_within_count (serialization := Demo.serialization)
              (Demo.viewset Demo.table23 (Some 10)) (Demo.request "3") []
              trace response)
    as (count & envelopes & Hcount & Hresults & Hbound & _).
  - intros queryset page Hpage.
    exact (paginate_is_page_of queryset 10 3 page Hpage).
  - exact Hrun.
  - vm_compute in Hrun. injection Hrun as _ <-. reflexivity.
  - exists trace, response, count, envelopes. auto.
Defined.

(** The serializer of [list] over 23 entities is bound to the model class
    of the manager. *)
Lemma serializers_bound_to_request_witness :
  exists mgr,
    manager_factory (Demo.viewset Demo.table23 None)
      [("request", Demo.request "1")] = Ok mgr
    /\ mgr_model_class mgr = Ok "Model".
Proof.
  destruct (serializers_bound_to_request (serialization := Demo.serialization)
              (Demo.viewset Demo.table23 None) (Demo.request "1") [])
    as [Hlist _].
  destruct (Hlist (@AlchemyListSerializer Demo.backend Demo.table23 "Model"
                     [("request", Demo.request "1")] true) Returned)
    as (_ & _ & Hmodel).
  - vm_compute. auto 6.
  - exact Hmodel.
Defined.

(** [/models/7/children/9/]: the manager is asked for [["7"; "9"]]. *)
Lemma manager_query_arguments_witness :
  ["7"; "9"] = values [("pk", "7"); ("child_pk", "9")]
  /\ length ["7"; "9"] = length [("pk", "7"); ("child_pk", "9")]
  /\ @nil (string * string) = [].
Proof.
  destruct (manager_query_arguments (serialization := Demo.serialization)
              (Demo.viewset Demo.table23 None) (Demo.request "1")
              [("pk", "7"); ("child_pk", "9")]) as [Hretrieve _].
  apply (Hretrieve ["7"; "9"] [] (Raised (Exception NotFound ""))).
  vm_compute. auto.
Defined.

(** [/models/7/]: a 200 whose body is the envelope of entity ["7"]. *)
Lemma retrieve_success_is_entity_envelope_witness :
  exists trace response,
    AlchemyModelViewSet.retrieve (Demo.viewset Demo.table23 None)
      (Demo.request "1") [("pk", "7")] = (trace, Ok response)
    /\ status_code response = HTTP_200_OK
    /\ data response = VDict [("href", VStr "http://server/api/models/7/")].
Proof.
  destruct (AlchemyModelViewSet.retrieve (Demo.viewset Demo.table23 None)
              (Demo.request "1") [("pk", "7")])
    as [trace [response | e]] eqn:Hrun;
    [| vm_compute in Hrun; discriminate].
  destruct (retrieve_success_is_entity_envelope
              (serialization := Demo.serialization)
              (Demo.viewset Demo.table23 None) (Demo.request "1")
              [("pk", "7")] trace response Hrun) as [Hstatus _].
  exists trace, response. repeat split; [exact Hstatus |].
  vm_compute in Hrun. injection Hrun as _ <-. reflexivity.
Defined.

End Examples.
